(** * warehouse-manager: the HTTP handlers of [handler.go]

    A shallow embedding of the seven handlers of package [main]
    ([Add], [AuthURL], [Browse], [Delete], [Publish], [Read], [Validate])
    together with the parts of the Go standard library they lean on:
    [net/http]'s [ResponseWriter], [http.Error], [Request.Cookie] and
    [Request.FormValue]; [httprouter.Params.ByName]; [encoding/json]'s
    [Marshal] for the four response structs; [time.Time]'s JSON form; and
    [io.Copy].

    The storage client [gd] is a package-level variable whose definition is
    not part of [handler.go]; it is taken as a parameter (a record of the
    seven operations, with the result types the call sites fix).

    Go strings are byte strings; they are modelled by [string] (a list of
    8-bit [ascii]).  Go [int] status codes are [Z].  A Go [error] value is
    [option goerror], [None] being [nil]; a pointer is an [option], and
    reading a field through a nil pointer panics.

    A handler is a computation in a state monad with panics.  Its state
    is the [ResponseWriter] and a trace of what it did to the outside
    world: the calls of the storage client, with their arguments, and the
    copy and the close of the stream [Read] gets.

    What the model leaves to the server: the headers the server adds on
    its own ([Date], [Content-Length], a sniffed [Content-Type]), the
    chunking of the body, and the canonical spelling of header keys (the
    handlers only use canonical keys).  The status codes the handlers
    pass are the constants 400, 401 and 404, within the range
    [WriteHeader] accepts. *)

From Stdlib Require Import ZArith String Ascii List Lia.
From stdpp Require Import base option list gmap strings.

Import ListNotations.
Set Warnings "-register-all".
Local Open Scope string_scope.
Local Open Scope Z_scope.

(** ** Go's [error] interface *)

(** A non-nil [error]; [Error] is its [Error()] method. *)
Record goerror := errors_New { Error : string }.

(** ** Bytes and decimal digits *)

(** The double quote character (code 34). *)
Definition dquote : ascii := "034"%char.

Definition byte_of (c : ascii) : Z := Z.of_N (N_of_ascii c).

Definition ascii_of (z : Z) : ascii := ascii_of_N (Z.to_N z).

(** The decimal digit [d] (0..9) as a character. *)
Definition digit (d : Z) : ascii := ascii_of (48 + d mod 10).

(** The hexadecimal digit [d] (0..15), lower case, as [encoding/json]'s
    [hex] table has it. *)
Definition hexdigit (d : Z) : ascii :=
  if d mod 16 <? 10 then ascii_of (48 + d mod 16) else ascii_of (87 + d mod 16).

(** [n] written with at least [width] decimal digits, zero padded
    ([time.appendInt] for [0 <= n]). *)
Fixpoint digits (width : nat) (n : Z) (acc : string) : string :=
  match width with
  | O => acc
  | S w => digits w (n / 10) (String (digit n) acc)
  end.

Definition pad2 (n : Z) : string := digits 2 n "".
Definition pad4 (n : Z) : string := digits 4 n "".

(** Drops the trailing ['0'] characters of a digit string given in reverse. *)
Fixpoint drop_zeros (rev_digits : list ascii) : list ascii :=
  match rev_digits with
  | c :: rest => if Ascii.eqb c "0" then drop_zeros rest else rev_digits
  | [] => []
  end.

Module time.

(** [time.Time]: an instant with nanosecond precision and the zone offset
    of its [Location] at that instant.  [sec] counts seconds since
    January 1, year 1, 00:00:00 UTC (the zero [Time]); [nsec] is in
    [0, 999999999]; [offset] is in seconds east of UTC. *)
Record Time := { sec : Z; nsec : Z; offset : Z }.

(** The zero value [time.Time{}]: January 1, year 1, 00:00:00 UTC. *)
Definition zero : Time := {| sec := 0; nsec := 0; offset := 0 |}.

Definition IsZero (t : Time) : bool := (sec t =? 0) && (nsec t =? 0).

(** Proleptic Gregorian date of day number [d], counted from
    January 1, year 1 (day 0): (year, month, day). *)
Definition civil (d : Z) : Z * Z * Z :=
  let z := d + 306 in                       (* days since 0000-03-01 *)
  let era := z / 146097 in
  let doe := z - era * 146097 in            (* [0, 146096] *)
  let yoe := (doe - doe / 1460 + doe / 36524 - doe / 146096) / 365 in
  let doy := doe - (365 * yoe + yoe / 4 - yoe / 100) in
  let mp := (5 * doy + 2) / 153 in
  let day := doy - (153 * mp + 2) / 5 + 1 in
  let month := if mp <? 10 then mp + 3 else mp - 9 in
  let year := yoe + era * 400 + (if month <=? 2 then 1 else 0) in
  (year, month, day).

Definition Year (t : Time) : Z :=
  let '(y, _, _) := civil ((sec t + offset t) / 86400) in y.

(** The fractional second of layout [.999999999]: nothing when [n = 0],
    else a dot and nine digits with the trailing zeros removed. *)
Definition fraction (n : Z) : string :=
  if n =? 0 then ""
  else String "." (string_of_list_ascii
         (rev (drop_zeros (rev (list_ascii_of_string (digits 9 n "")))))).

(** The zone of layout [Z07:00]: [Z] for offset 0, else sign, hours and
    minutes (the offset is truncated to minutes). *)
Definition zone (off : Z) : string :=
  if off =? 0 then "Z"
  else
    let m := Z.quot off 60 in
    let a := Z.abs m in
    (if m <? 0 then "-" else "+") +:+ pad2 (a / 60) +:+ ":" +:+ pad2 (a mod 60).

(** [t.Format(time.RFC3339Nano)] for a year in [0, 9999]. *)
Definition formatRFC3339Nano (t : Time) : string :=
  let abs := sec t + offset t in
  let '(y, m, d) := civil (abs / 86400) in
  let s := abs mod 86400 in
  pad4 y +:+ "-" +:+ pad2 m +:+ "-" +:+ pad2 d +:+ "T"
    +:+ pad2 (s / 3600) +:+ ":" +:+ pad2 (s mod 3600 / 60) +:+ ":" +:+ pad2 (s mod 60)
    +:+ fraction (nsec t) +:+ zone (offset t).

(** [Time.MarshalJSON]: the quoted RFC 3339 text, or an error when the
    year is outside [0, 9999] or the zone hour is outside [0, 23]. *)
Definition MarshalJSON (t : Time) : string + goerror :=
  if (Year t <? 0) || (9999 <? Year t) then
    inr (errors_New "Time.MarshalJSON: year outside of range [0,9999]")
  else if 24 <=? Z.abs (Z.quot (offset t) 60) / 60 then
    inr (errors_New "Time.MarshalJSON: timezone hour outside of range [0,23]")
  else inl (String dquote (formatRFC3339Nano t +:+ String dquote "")).

End time.

Module json.

(** *** The Go values the handlers marshal

    A small universe of [reflect] kinds: strings, slices (a nil slice is
    [VSlice None]), structs with their [json] field tags, and
    [time.Time], a struct kind that implements [json.Marshaler]. *)
Inductive Value :=
| VString (s : string)
| VSlice (elems : option (list Value))
| VStruct (fields : list (string * bool * Value))   (* key, omitempty, value *)
| VTime (t : time.Time).

(** [isEmptyValue]: what [omitempty] drops.  Strings and slices of length
    zero are empty; a value of struct kind never is. *)
Definition isEmptyValue (v : Value) : bool :=
  match v with
  | VString s => Nat.eqb (String.length s) 0
  | VSlice None => true
  | VSlice (Some l) => Nat.eqb (List.length l) 0
  | VStruct _ => false
  | VTime _ => false
  end.

(** *** The JSON text the encoder emits *)
Inductive Json :=
| JNull
| JString (s : string)                 (* a Go string, escaped when rendered *)
| JRaw (text : string)                 (* the output of a [MarshalJSON] method *)
| JArray (items : list Json)
| JObject (members : list (string * Json)).

Definition RuneError : Z := 0xFFFD.

Definition between (lo hi : Z) (c : ascii) : bool :=
  (lo <=? byte_of c) && (byte_of c <=? hi).

Definition low6 (c : ascii) : Z := Z.land (byte_of c) 0x3F.

(** [utf8.DecodeRuneInString]: the first rune of [s] and its width in
    bytes; [(RuneError, 1)] for an invalid encoding, [(RuneError, 0)] for
    the empty string. *)
Definition DecodeRuneInString (s : string) : Z * nat :=
  match s with
  | EmptyString => (RuneError, 0%nat)
  | String c0 r =>
    let b0 := byte_of c0 in
    if b0 <? 0x80 then (b0, 1%nat)
    else if (0xC2 <=? b0) && (b0 <=? 0xDF) then
      match r with
      | String c1 _ =>
        if between 0x80 0xBF c1
        then (Z.lor (Z.shiftl (Z.land b0 0x1F) 6) (low6 c1), 2%nat)
        else (RuneError, 1%nat)
      | _ => (RuneError, 1%nat)
      end
    else if (0xE0 <=? b0) && (b0 <=? 0xEF) then
      let lo := if b0 =? 0xE0 then 0xA0 else 0x80 in
      let hi := if b0 =? 0xED then 0x9F else 0xBF in
      match r with
      | String c1 (String c2 _) =>
        if between lo hi c1 && between 0x80 0xBF c2
        then (Z.lor (Z.shiftl (Z.land b0 0x0F) 12)
                (Z.lor (Z.shiftl (low6 c1) 6) (low6 c2)), 3%nat)
        else (RuneError, 1%nat)
      | _ => (RuneError, 1%nat)
      end
    else if (0xF0 <=? b0) && (b0 <=? 0xF4) then
      let lo := if b0 =? 0xF0 then 0x90 else 0x80 in
      let hi := if b0 =? 0xF4 then 0x8F else 0xBF in
      match r with
      | String c1 (String c2 (String c3 _)) =>
        if between lo hi c1 && between 0x80 0xBF c2 && between 0x80 0xBF c3
        then (Z.lor (Z.shiftl (Z.land b0 0x07) 18)
                (Z.lor (Z.shiftl (low6 c1) 12)
                   (Z.lor (Z.shiftl (low6 c2) 6) (low6 c3))), 4%nat)
        else (RuneError, 1%nat)
      | _ => (RuneError, 1%nat)
      end
    else (RuneError, 1%nat)
  end.

(** [htmlSafeSet]: the ASCII bytes copied as they are when HTML escaping
    is on (the default of [Marshal]). *)
Definition htmlSafe (b : Z) : bool :=
  (0x20 <=? b) && negb ((b =? 0x22) || (b =? 0x26) || (b =? 0x3C)
                        || (b =? 0x3E) || (b =? 0x5C)).

(** The escape sequence of an ASCII byte outside [htmlSafeSet]. *)
Definition escapeByte (c : ascii) : string :=
  let b := byte_of c in
  if (b =? 0x5C) || (b =? 0x22) then String "\" (String c "")
  else if b =? 0x08 then "\b"
  else if b =? 0x0C then "\f"
  else if b =? 0x0A then "\n"
  else if b =? 0x0D then "\r"
  else if b =? 0x09 then "\t"
  else "\u00" +:+ String (hexdigit (b / 16)) (String (hexdigit b) "").

(** What is left of a multi-byte rune whose first byte has been handled:
    bytes still to copy, or bytes still to drop. *)
Inductive pending := Copy (n : nat) | Drop (n : nat).

(** The body of [appendString]: [s] escaped, without the quotes. *)
Fixpoint escape (p : pending) (s : string) : string :=
  match s with
  | EmptyString => EmptyString
  | String c r =>
    match p with
    | Copy (S k) => String c (escape (Copy k) r)
    | Drop (S k) => escape (Drop k) r
    | _ =>
      let b := byte_of c in
      if b <? 0x80 then
        if htmlSafe b then String c (escape (Copy 0) r)
        else escapeByte c +:+ escape (Copy 0) r
      else
        let '(rune, size) := DecodeRuneInString s in
        if (rune =? RuneError) && Nat.eqb size 1 then
          "\ufffd" +:+ escape (Copy 0) r
        else if rune =? 0x2028 then "\u2028" +:+ escape (Drop (size - 1)) r
        else if rune =? 0x2029 then "\u2029" +:+ escape (Drop (size - 1)) r
        else String c (escape (Copy (size - 1)) r)
    end
  end.

(** [appendString]: a Go string as a JSON string literal. *)
Definition quote (s : string) : string :=
  String dquote (escape (Copy 0) s +:+ String dquote "").

(** The encoder's output as bytes. *)
Fixpoint render (j : Json) : string :=
  match j with
  | JNull => "null"
  | JString s => quote s
  | JRaw text => text
  | JArray items =>
    "[" +:+ (fix elems (first : bool) (l : list Json) : string :=
               match l with
               | [] => ""
               | x :: rest =>
                 (if first then "" else ",") +:+ render x +:+ elems false rest
               end) true items +:+ "]"
  | JObject members =>
    "{" +:+ (fix fields (first : bool) (l : list (string * Json)) : string :=
               match l with
               | [] => ""
               | (k, x) :: rest =>
                 (if first then "" else ",") +:+ quote k +:+ ":" +:+ render x
                   +:+ fields false rest
               end) true members +:+ "}"
  end.

(** The encoder proper.  A nil slice encodes as [null]; a struct encodes
    its fields in declaration order, leaving out those tagged
    [omitempty] whose value [isEmptyValue]; a [Marshaler] is asked for
    its own text, and its error aborts the encoding. *)
Fixpoint encode (v : Value) : Json + goerror :=
  match v with
  | VString s => inl (JString s)
  | VSlice None => inl JNull
  | VSlice (Some l) =>
    match (fix elems (l : list Value) : list Json + goerror :=
             match l with
             | [] => inl []
             | x :: rest =>
               match encode x with
               | inr e => inr e
               | inl j => match elems rest with
                          | inr e => inr e
                          | inl js => inl (j :: js)
                          end
               end
             end) l with
    | inl js => inl (JArray js)
    | inr e => inr e
    end
  | VStruct fs =>
    match (fix fields (l : list (string * bool * Value))
             : list (string * Json) + goerror :=
             match l with
             | [] => inl []
             | (k, omitEmpty, x) :: rest =>
               if omitEmpty && isEmptyValue x then fields rest
               else match encode x with
                    | inr e => inr e
                    | inl j => match fields rest with
                               | inr e => inr e
                               | inl ms => inl ((k, j) :: ms)
                               end
                    end
             end) fs with
    | inl ms => inl (JObject ms)
    | inr e => inr e
    end
  | VTime t =>
    match time.MarshalJSON t with
    | inl text => inl (JRaw text)
    | inr e =>
      inr (errors_New
             ("json: error calling MarshalJSON for type time.Time: " +:+ Error e))
    end
  end.

(** [json.Marshal]: the bytes and a nil error, or nil bytes (the empty
    string) and the error. *)
Definition Marshal (v : Value) : string * option goerror :=
  match encode v with
  | inl j => (render j, None)
  | inr e => ("", Some e)
  end.

End json.

(** ** [net/http] *)

Module http.

Definition StatusOK : Z := 200.
Definition StatusBadRequest : Z := 400.
Definition StatusUnauthorized : Z := 401.
Definition StatusNotFound : Z := 404.

(** [http.Header], a [map[string][]string].  The handlers only use keys
    that are already in canonical form, so [Set], [Del] and [Get] are
    modelled without [CanonicalMIMEHeaderKey]. *)
Abbreviation Header := (gmap string (list string)).

Definition Header_Set (key value : string) (h : Header) : Header :=
  <[key := [value]]> h.

Definition Header_Del (key : string) (h : Header) : Header := delete key h.

Definition Header_Get (key : string) (h : Header) : string :=
  match h !! key with
  | Some (v :: _) => v
  | _ => ""
  end.

(** [http.Cookie], as far as the handlers read it. *)
Record Cookie := { Name : string; Value : string }.

(** The body of an [http.Response]: an [io.ReadCloser] that yields
    [data] and then either EOF or the error [readErr]. *)
Record ReadCloser := { data : string; readErr : option goerror }.

(** [http.Response], as far as [Read] uses it. *)
Record Response := { Body : ReadCloser }.

(** [http.Request]: the cookies the [Cookie] header parses to, in order;
    the parsed form; the request body. *)
Record Request := {
  Cookies : list Cookie;
  Form : gmap string (list string);
  RequestBody : string
}.

Definition ErrNoCookie : goerror :=
  errors_New "http: named cookie not present".

(** [r.Cookie(name)]: the first cookie of that name, or [ErrNoCookie]. *)
Fixpoint findCookie (name : string) (cs : list Cookie) : option Cookie :=
  match cs with
  | [] => None
  | c :: rest => if String.eqb (Name c) name then Some c else findCookie name rest
  end.

Definition Request_Cookie (r : Request) (name : string)
  : option Cookie * option goerror :=
  if String.eqb name "" then (None, Some ErrNoCookie)
  else match findCookie name (Cookies r) with
       | Some c => (Some c, None)
       | None => (None, Some ErrNoCookie)
       end.

(** [r.FormValue(key)]: the first value of [key], or the empty string. *)
Definition FormValue (r : Request) (key : string) : string :=
  match Form r !! key with
  | Some (v :: _) => v
  | _ => ""
  end.

(** The server's [ResponseWriter] for one request.  [header] is the
    map [w.Header()] hands out; [WriteHeader] freezes a copy of it into
    [sentHeader] together with the status, and later changes of [header]
    no longer reach the client. *)
Record response := {
  header : Header;
  wroteHeader : bool;
  status : Z;
  sentHeader : Header;
  written : string
}.

Definition newResponse : response :=
  {| header := ∅; wroteHeader := false; status := 0;
     sentHeader := ∅; written := "" |}.

(** [w.WriteHeader(code)]; a second call is ignored (the server logs
    "superfluous response.WriteHeader call"). *)
Definition WriteHeader (code : Z) (w : response) : response :=
  if wroteHeader w then w
  else {| header := header w; wroteHeader := true; status := code;
          sentHeader := header w; written := written w |}.

(** [bodyAllowedForStatus] *)
Definition bodyAllowedForStatus (code : Z) : bool :=
  if (100 <=? code) && (code <=? 199) then false
  else if code =? 204 then false
  else if code =? 304 then false
  else true.

Definition ErrBodyNotAllowed : goerror :=
  errors_New "http: request method or response status code does not allow body".

(** [w.Write(p)]: sends the header with status 200 if none was sent yet,
    then appends [p] to the body. *)
Definition Write (p : string) (w : response) : response * option goerror :=
  let w := WriteHeader StatusOK w in
  if Nat.eqb (String.length p) 0 then (w, None)
  else if negb (bodyAllowedForStatus (status w)) then (w, Some ErrBodyNotAllowed)
  else ({| header := header w; wroteHeader := wroteHeader w; status := status w;
           sentHeader := sentHeader w; written := written w +:+ p |}, None).

Definition setHeader (h : Header) (w : response) : response :=
  {| header := h; wroteHeader := wroteHeader w; status := status w;
     sentHeader := sentHeader w; written := written w |}.

(** [http.Error(w, error, code)]: plain-text headers, the status, and the
    message on a line of its own ([fmt.Fprintln]). *)
Definition Error (msg : string) (code : Z) (w : response) : response :=
  let h := Header_Del "Content-Length" (header w) in
  let h := Header_Set "Content-Type" "text/plain; charset=utf-8" h in
  let h := Header_Set "X-Content-Type-Options" "nosniff" h in
  let w := WriteHeader code (setHeader h w) in
  fst (Write (msg +:+ String "010" "") w).

(** What the server does when the handler returns: a response whose
    header was never written goes out with status 200. *)
Definition finishRequest (w : response) : response := WriteHeader StatusOK w.

End http.

(** ** [httprouter] *)

Module httprouter.

Record Param := { Key : string; Value : string }.

Definition Params := list Param.

(** [ps.ByName(name)]: the value of the first parameter of that name, or
    the empty string. *)
Fixpoint ByName (ps : Params) (name : string) : string :=
  match ps with
  | [] => ""
  | p :: rest => if String.eqb (Key p) name then Value p else ByName rest name
  end.

End httprouter.

(** ** Package [main] *)

(** *** What a handler does to the outside world *)

(** A call of one of the storage client's operations, with its arguments. *)
Inductive ClientCall :=
| CallAdd (token body path : string)
| CallAuthURL
| CallBrowse (token path : string)
| CallDelete (token path : string)
| CallPublish (token path : string)
| CallRead (token path : string)
| CallValidate (code : string).

Inductive Event :=
| Client (c : ClientCall)
| Copied (b : http.ReadCloser)      (* [io.Copy] ran on the stream *)
| Closed (b : http.ReadCloser).     (* [Close] was called on the stream *)

(** The state a handler runs in: its [ResponseWriter] and the events so
    far, oldest first. *)
Record World := { w : http.response; trace : list Event }.

(** A handler either returns or panics. *)
Inductive Outcome (A : Type) :=
| Returned (a : A) (σ : World)
| Panicked (msg : string) (σ : World).

Arguments Returned {A} a σ.
Arguments Panicked {A} msg σ.

Definition M (A : Type) : Type := World -> Outcome A.

#[global] Instance M_ret : MRet M := λ A a σ, Returned a σ.

#[global] Instance M_bind : MBind M := λ A B f m σ,
  match m σ with
  | Returned a σ' => f a σ'
  | Panicked msg σ' => Panicked msg σ'
  end.

Definition panic {A} (msg : string) : M A := λ σ, Panicked msg σ.

Definition emit (e : Event) : M unit :=
  λ σ, Returned tt {| w := w σ; trace := trace σ ++ [e] |}.

(** Lifts a transition of the [ResponseWriter]. *)
Definition onWriter (f : http.response → http.response) : M unit :=
  λ σ, Returned tt {| w := f (w σ); trace := trace σ |}.

(** [p.field] for a pointer [p]: a nil pointer panics. *)
Definition deref {A} (p : option A) : M A :=
  match p with
  | Some a => mret a
  | None => panic "runtime error: invalid memory address or nil pointer dereference"
  end.

Definition isNil {A} (p : option A) : bool :=
  match p with
  | None => true
  | Some _ => false
  end.

Definition http_Error (msg : string) (code : Z) : M unit :=
  onWriter (http.Error msg code).

Definition Header_Set (key value : string) : M unit :=
  onWriter (λ r, http.setHeader (http.Header_Set key value (http.header r)) r).

Definition Write (p : string) : M (option goerror) :=
  λ σ, Returned (snd (http.Write p (w σ)))
                {| w := fst (http.Write p (w σ)); trace := trace σ |}.

Module io.

(** [io.Copy(w, src)]: reads [src] until EOF or an error and writes what
    it read to [w]; returns the first error met, a write error before a
    read error.  The number of bytes copied, which [Read] ignores, is
    left out. *)
Definition Copy (src : http.ReadCloser) : M (option goerror) :=
  emit (Copied src) ;;
  if Nat.eqb (String.length (http.data src)) 0 then mret (http.readErr src)
  else
    err ← Write (http.data src);
    match err with
    | Some e => mret (Some e)
    | None => mret (http.readErr src)
    end.

(** [b.Close()] *)
Definition Close (b : http.ReadCloser) : M (option goerror) :=
  emit (Closed b) ;; mret None.

End io.

(** *** The response structs and their [json] tags *)

Record AuthURLJSON := { AuthURLJSON_URL : string }.
Record BrowseJSON := { FileList : option (list string) }.
Record PublishJSON := { PublishJSON_URL : string }.
Record ValidateJSON := { Token : string; Expiry : time.Time }.

(** The view [encoding/json] has of a Go value through [reflect]. *)
Class Reflect (A : Type) := ValueOf : A → json.Value.

#[global] Instance Reflect_string : Reflect string := json.VString.

#[global] Instance Reflect_Time : Reflect time.Time := json.VTime.

#[global] Instance Reflect_slice {A} `{Reflect A} : Reflect (option (list A)) :=
  λ s, json.VSlice (List.map ValueOf <$> s).

#[global] Instance Reflect_AuthURLJSON : Reflect AuthURLJSON :=
  λ a, json.VStruct [("url", false, ValueOf (AuthURLJSON_URL a))].

#[global] Instance Reflect_BrowseJSON : Reflect BrowseJSON :=
  λ b, json.VStruct [("file_list", false, ValueOf (FileList b))].

#[global] Instance Reflect_PublishJSON : Reflect PublishJSON :=
  λ p, json.VStruct [("url", false, ValueOf (PublishJSON_URL p))].

#[global] Instance Reflect_ValidateJSON : Reflect ValidateJSON :=
  λ v, json.VStruct [("access_token", false, ValueOf (Token v));
                     ("expiry", true, ValueOf (Expiry v))].

Definition json_Marshal {A} `{Reflect A} (a : A) : string * option goerror :=
  json.Marshal (ValueOf a).

(** *** The storage client [gd] *)

(** The operations the handlers call on [gd], typed as the call sites
    use them.  Each handler calls the client at most once, so an
    operation is a function of its arguments. *)
Record StorageClient := {
  gd_Add : string → string → string → option goerror;
  gd_AuthURL : string;
  gd_Browse : string → string → option (list string) * option goerror;
  gd_Delete : string → string → option goerror;
  gd_Publish : string → string → string * option goerror;
  gd_Read : string → string → option http.Response * option goerror;
  gd_Validate : string → string * time.Time * option goerror
}.

Section Handlers.

Variable gd : StorageClient.

(** A call of the client: recorded in the trace. *)
Definition call {A} (c : ClientCall) (result : A) : M A :=
  emit (Client c) ;; mret result.

(** [Add] adds a new file to the cloud storage provider listed in the
    cookie. *)
Definition Add (r : http.Request) (ps : httprouter.Params) : M unit :=
  let '(cookie, err) := http.Request_Cookie r "token" in
  if negb (isNil err) then
    http_Error "User not authenticated" http.StatusUnauthorized
  else
    c ← deref cookie;
    let token := http.Value c in
    let path := httprouter.ByName ps "filepath" in
    err ← call (CallAdd token (http.RequestBody r) path)
               (gd_Add gd token (http.RequestBody r) path);
    match err with
    | Some e => http_Error (Error e) http.StatusBadRequest
    | None => mret tt
    end.

(** [AuthURL] returns the oauth2 URL of the provider named in the route,
    encoded in JSON; an unsupported provider gets [StatusNotFound]. *)
Definition AuthURL (r : http.Request) (ps : httprouter.Params) : M unit :=
  if String.eqb (httprouter.ByName ps "provider") "google" then
    url ← call CallAuthURL (gd_AuthURL gd);
    let a := {| AuthURLJSON_URL := url |} in
    let '(j, _) := json_Marshal a in
    Header_Set "Content-Type" "application/json" ;;
    Write j ;; mret tt
  else
    http_Error "Provider not found" http.StatusNotFound.

(** [Browse] returns the content of a directory as a json list. *)
Definition Browse (r : http.Request) (ps : httprouter.Params) : M unit :=
  let '(cookie, err) := http.Request_Cookie r "token" in
  if negb (isNil err) then
    http_Error "authenticated" http.StatusUnauthorized
  else
    c ← deref cookie;
    let token := http.Value c in
    let path := httprouter.ByName ps "filepath" in
    '(list, err) ← call (CallBrowse token path) (gd_Browse gd token path);
    match err with
    | Some e => http_Error (Error e) http.StatusBadRequest
    | None => mret tt
    end ;;
    let '(j, _) := json_Marshal {| FileList := list |} in
    Header_Set "Content-Type" "application/json" ;;
    Write j ;; mret tt.

(** [Delete] deletes the given file. *)
Definition Delete (r : http.Request) (ps : httprouter.Params) : M unit :=
  let '(cookie, err) := http.Request_Cookie r "token" in
  if negb (isNil err) then
    http_Error "User not authenticated" http.StatusUnauthorized
  else
    c ← deref cookie;
    let token := http.Value c in
    let path := httprouter.ByName ps "filepath" in
    err ← call (CallDelete token path) (gd_Delete gd token path);
    match err with
    | Some e => http_Error (Error e) http.StatusBadRequest
    | None => mret tt
    end.

(** [Publish] sets the given file to public. *)
Definition Publish (r : http.Request) (ps : httprouter.Params) : M unit :=
  let '(cookie, err) := http.Request_Cookie r "token" in
  if negb (isNil err) then
    http_Error "User not authenticated" http.StatusUnauthorized
  else
    c ← deref cookie;
    let token := http.Value c in
    let path := httprouter.ByName ps "filepath" in
    '(link, err) ← call (CallPublish token path) (gd_Publish gd token path);
    match err with
    | Some e => http_Error (Error e) http.StatusBadRequest
    | None => mret tt
    end ;;
    let '(j, _) := json_Marshal {| PublishJSON_URL := link |} in
    Header_Set "Content-Type" "application/json" ;;
    Write j ;; mret tt.

(** [Read] gets the given file and returns its content. *)
Definition Read (r : http.Request) (ps : httprouter.Params) : M unit :=
  let '(cookie, err) := http.Request_Cookie r "token" in
  if negb (isNil err) then
    http_Error "User not authenticated" http.StatusUnauthorized
  else
    c ← deref cookie;
    let token := http.Value c in
    let path := httprouter.ByName ps "filepath" in
    '(response, err) ← call (CallRead token path) (gd_Read gd token path);
    match err with
    | Some e => http_Error (Error e) http.StatusBadRequest
    | None =>
      if isNil response then mret tt
      else
        resp ← deref response;
        io.Copy (http.Body resp) ;;
        io.Close (http.Body resp) ;;
        mret tt
    end.

(** [Validate] reads the form values of a request and validates the
    oauth2 code; once the code is validated it returns the user token. *)
Definition Validate (r : http.Request) (ps : httprouter.Params) : M unit :=
  let state := http.FormValue r "state" in
  if String.eqb state "google" then
    let code := http.FormValue r "code" in
    '(token, expiry, err) ← call (CallValidate code) (gd_Validate gd code);
    match err with
    | Some _ => http_Error "Auth Code invalid" http.StatusBadRequest
    | None =>
      let '(j, _) := json_Marshal {| Token := token; Expiry := expiry |} in
      Header_Set "Content-Type" "application/json" ;;
      Write j ;; mret tt
    end
  else
    http_Error "Invalid state token" http.StatusBadRequest.

End Handlers.

(** *** Serving one request *)

Definition newWorld : World := {| w := http.newResponse; trace := [] |}.

(** The server runs the handler on a fresh [ResponseWriter] and, when the
    handler returns, completes the response. *)
Definition serve (h : M unit) : Outcome unit :=
  match h newWorld with
  | Returned _ σ => Returned tt {| w := http.finishRequest (w σ); trace := trace σ |}
  | Panicked msg σ => Panicked msg σ
  end.

(** *** Reading a served request *)

(** The handler returned, and the client sees status [code], the
    [Content-Type] [contentType] and the body [body]. *)
Definition responds (o : Outcome unit) (code : Z) (contentType body : string) : Prop :=
  ∃ σ, o = Returned tt σ
       ∧ http.status (w σ) = code
       ∧ http.Header_Get "Content-Type" (http.sentHeader (w σ)) = contentType
       ∧ http.written (w σ) = body.

(** The credential a client call was given, for the calls that take one. *)
Definition credential (c : ClientCall) : option string :=
  match c with
  | CallAdd token _ _ => Some token
  | CallBrowse token _ => Some token
  | CallDelete token _ => Some token
  | CallPublish token _ => Some token
  | CallRead token _ => Some token
  | CallAuthURL => None
  | CallValidate _ => None
  end.

(** The client calls of a trace, in order. *)
Fixpoint clientCalls (tr : list Event) : list ClientCall :=
  match tr with
  | [] => []
  | Client c :: rest => c :: clientCalls rest
  | _ :: rest => clientCalls rest
  end.

Definition plainText : string := "text/plain; charset=utf-8".

Definition newline : string := String "010" "".

(** *** A client for examples: every operation answers with fixed values *)

Definition stubClient (list : option (list string)) (link : string)
    (resp : option http.Response) (token : string) (expiry : time.Time)
    (err : option goerror) : StorageClient :=
  {| gd_Add := λ _ _ _, err;
     gd_AuthURL := "https://accounts.example.com/o/oauth2/auth";
     gd_Browse := λ _ _, (list, err);
     gd_Delete := λ _ _, err;
     gd_Publish := λ _ _, (link, err);
     gd_Read := λ _ _, (resp, err);
     gd_Validate := λ _, (token, expiry, err) |}.

(** A client whose every operation fails with the message [msg] and the
    zero value of its result. *)
Definition failingClient (msg : string) : StorageClient :=
  stubClient None "" None "" time.zero (Some (errors_New msg)).

(** A request with the cookie [token=SECRET], for the file [docs/a.txt]. *)
Definition cookieRequest : http.Request :=
  {| http.Cookies := [ {| http.Name := "lang"; http.Value := "en" |};
                       {| http.Name := "token"; http.Value := "SECRET" |} ];
     http.Form := ∅;
     http.RequestBody := "payload" |}.

(** A request without a [token] cookie. *)
Definition anonymousRequest : http.Request :=
  {| http.Cookies := [ {| http.Name := "lang"; http.Value := "en" |} ];
     http.Form := ∅;
     http.RequestBody := "payload" |}.

Definition fileParams : httprouter.Params :=
  [ {| httprouter.Key := "filepath"; httprouter.Value := "docs/a.txt" |} ].

(** The OAuth2 callback [?state=STATE&code=4/abc]. *)
Definition callbackRequest (state : string) : http.Request :=
  {| http.Cookies := [];
     http.Form := {[ "state" := [state]; "code" := ["4/abc"] ]};
     http.RequestBody := "" |}.

(** *** Reading a trace and the JSON a handler wrote *)

(** The JSON form of a Go [[]string]: [null] for the nil slice, else the
    array of its strings. *)
Definition jsonStrings (l : option (list string)) : json.Json :=
  match l with
  | None => json.JNull
  | Some names => json.JArray (List.map json.JString names)
  end.

#[global] Instance goerror_eq_dec : EqDecision goerror.
Proof. solve_decision. Defined.

#[global] Instance ReadCloser_eq_dec : EqDecision http.ReadCloser.
Proof. solve_decision. Defined.

#[global] Instance ClientCall_eq_dec : EqDecision ClientCall.
Proof. solve_decision. Defined.

#[global] Instance Event_eq_dec : EqDecision Event.
Proof. solve_decision. Defined.

(** How often the event [e] occurs in a trace. *)
Definition occurrences (e : Event) (tr : list Event) : nat :=
  List.length (List.filter (λ x, bool_decide (x = e)) tr).

(** The headers [http.Error] leaves on a response that had none. *)
Definition errorHeader : http.Header :=
  http.Header_Set "X-Content-Type-Options" "nosniff"
    (http.Header_Set "Content-Type" plainText (http.Header_Del "Content-Length" ∅)).

(** A stream for examples, and a client whose [Read] returns it. *)
Definition helloStream : http.ReadCloser :=
  {| http.data := "hello"; http.readErr := None |}.

Definition streamClient : StorageClient :=
  stubClient None "" (Some {| http.Body := helloStream |}) "" time.zero None.

(** *** More readings of a trace, and more examples *)

(** The path a client call was given, for the calls that take one. *)
Definition callPath (c : ClientCall) : option string :=
  match c with
  | CallAdd _ _ path => Some path
  | CallBrowse _ path => Some path
  | CallDelete _ path => Some path
  | CallPublish _ path => Some path
  | CallRead _ path => Some path
  | CallAuthURL => None
  | CallValidate _ => None
  end.

(** The seven handlers of [handler.go]. *)
Definition handlers (gd : StorageClient)
  : list (http.Request → httprouter.Params → M unit) :=
  [Add gd; AuthURL gd; Browse gd; Delete gd; Publish gd; Read gd; Validate gd].

(** The five handlers that ask for the [token] cookie. *)
Definition cookieHandlers (gd : StorageClient)
  : list (http.Request → httprouter.Params → M unit) :=
  [Add gd; Browse gd; Delete gd; Publish gd; Read gd].

(** January 1 of year 10000, an instant without an RFC 3339 form. *)
Definition year10000 : time.Time :=
  {| time.sec := 315537897600; time.nsec := 0; time.offset := 0 |}.

(** The route parameter [provider=NAME]. *)
Definition providerParams (name : string) : httprouter.Params :=
  [ {| httprouter.Key := "provider"; httprouter.Value := name |} ].


(** A client that accepts everything and lists two files. *)
Definition listingClient : StorageClient :=
  stubClient (Some ["a.txt"; "b<1>.txt"]) "https://drive.example.com/f/1" None
    "ya29.a0" time.zero None.

(** *** Proof steps

    [step] unfolds the monad and the lifted [ResponseWriter] operations;
    [writer] brings the [ResponseWriter] of a finished run to a record of
    its five fields, with the rewrite rules of the [writer] database. *)

Create Rewrite HintDb writer.

Ltac step :=
  unfold serve, http_Error, Header_Set, Write, io.Copy, io.Close, call, emit,
    onWriter, deref, panic, newWorld, mbind, M_bind, mret, M_ret;
  cbn beta iota zeta delta [w trace isNil negb fst snd app].

Ltac writer :=
  repeat first
    [ progress autorewrite with writer
    | progress (unfold http.setHeader, http.finishRequest, http.WriteHeader,
                  http.newResponse;
                cbn [http.wroteHeader http.status http.header
                     http.sentHeader http.written]) ].

(** * Facts *)

(** ** Strings *)

Lemma append_cons (a : ascii) (s t : string) : String a s +:+ t = String a (s +:+ t).
Proof. reflexivity. Qed.

Lemma append_empty_r (s : string) : s +:+ "" = s.
Proof. induction s as [|a s IH]; [reflexivity|]. by rewrite append_cons, IH. Qed.

Lemma append_assoc (a b c : string) : (a +:+ b) +:+ c = a +:+ (b +:+ c).
Proof. induction a as [|x a IH]; [reflexivity|]. by rewrite !append_cons, IH. Qed.

Lemma length_line (msg : string) : Nat.eqb (String.length (msg +:+ newline)) 0 = false.
Proof. destruct msg; reflexivity. Qed.

Lemma line_not_empty (msg : string) : msg +:+ newline ≠ "".
Proof. destruct msg; discriminate. Qed.

Lemma line_not_message (msg : string) : msg +:+ newline ≠ msg.
Proof.
  induction msg as [|a s IH]; [discriminate|].
  rewrite append_cons. intros [= H]. by apply IH.
Qed.

(** ** The [ResponseWriter] *)

(** On a fresh response [http.Error] fixes the status and the plain-text
    headers and writes the message on a line. *)
Lemma Error_newResponse (msg : string) (code : Z) :
  http.bodyAllowedForStatus code = true →
  http.Error msg code http.newResponse =
    {| http.header := errorHeader; http.wroteHeader := true; http.status := code;
       http.sentHeader := errorHeader; http.written := msg +:+ newline |}.
Proof.
  intros Hcode. unfold http.Error, http.Write, http.WriteHeader, http.setHeader,
    http.newResponse, http.StatusOK.
  cbn [http.wroteHeader http.status http.header http.sentHeader http.written fst].
  fold newline. rewrite length_line.
  cbn [http.wroteHeader http.status http.header http.sentHeader http.written fst].
  rewrite Hcode. reflexivity.
Qed.

(** Once the header is out, [Write] only appends to the body. *)
Lemma Write_wroteHeader (p : string) h code sh b :
  http.bodyAllowedForStatus code = true →
  fst (http.Write p {| http.header := h; http.wroteHeader := true; http.status := code;
                       http.sentHeader := sh; http.written := b |}) =
    {| http.header := h; http.wroteHeader := true; http.status := code;
       http.sentHeader := sh; http.written := b +:+ p |}.
Proof.
  intros Hcode. unfold http.Write, http.WriteHeader.
  cbn [http.wroteHeader http.status http.header http.sentHeader http.written].
  rewrite Hcode. destruct p; [by rewrite append_empty_r | reflexivity].
Qed.

(** The first [Write] on a response sends the header as it stands, with
    status 200. *)
Lemma Write_first (p : string) h s sh :
  fst (http.Write p {| http.header := h; http.wroteHeader := false; http.status := s;
                       http.sentHeader := sh; http.written := "" |}) =
    {| http.header := h; http.wroteHeader := true; http.status := http.StatusOK;
       http.sentHeader := h; http.written := p |}.
Proof.
  unfold http.Write, http.WriteHeader.
  cbn [http.wroteHeader http.status http.header http.sentHeader http.written].
  destruct p; reflexivity.
Qed.

#[local] Hint Rewrite Error_newResponse Write_wroteHeader using reflexivity : writer.
#[local] Hint Rewrite Write_first : writer.

Lemma Error_Content_Type :
  http.Header_Get "Content-Type" errorHeader = plainText.
Proof. reflexivity. Qed.

(** ** Cookies *)

Lemma findCookie_None (name : string) (cs : list http.Cookie) :
  (∀ c, c ∈ cs → http.Name c ≠ name) → http.findCookie name cs = None.
Proof.
  induction cs as [|c cs IH]; intros H; [reflexivity|]. cbn.
  destruct (String.eqb_spec (http.Name c) name) as [Heq|_].
  - exfalso. apply (H c); [left | exact Heq].
  - apply IH. intros c' Hc'. apply H. by right.
Qed.

Lemma Request_Cookie_missing (r : http.Request) (name : string) :
  (∀ c, c ∈ http.Cookies r → http.Name c ≠ name) →
  http.Request_Cookie r name = (None, Some http.ErrNoCookie).
Proof.
  intros H. unfold http.Request_Cookie. rewrite (findCookie_None _ _ H).
  by destruct (String.eqb name "").
Qed.

(** ** The encoder on the response structs *)

Lemma encode_strings (names : list string) :
  json.encode (json.VSlice (Some (List.map json.VString names))) =
    inl (json.JArray (List.map json.JString names)).
Proof.
  cbn [json.encode].
  induction names as [|n names IH]; [reflexivity|].
  cbn [List.map json.encode].
  destruct (_ (List.map json.VString names)) as [js|e] eqn:Hrest; [|discriminate].
  by injection IH as ->.
Qed.

Lemma Marshal_BrowseJSON (l : option (list string)) :
  json_Marshal {| FileList := l |} =
    (json.render (json.JObject [("file_list", jsonStrings l)]), None).
Proof.
  unfold json_Marshal, json.Marshal, ValueOf, Reflect_BrowseJSON, Reflect_slice.
  cbn [FileList]. destruct l as [names|]; [|reflexivity].
  cbn [json.encode andb].
  change (ValueOf (Some names)) with (json.VSlice (Some (List.map json.VString names))).
  by rewrite encode_strings.
Qed.

Lemma Marshal_PublishJSON (link : string) :
  json_Marshal {| PublishJSON_URL := link |} =
    (json.render (json.JObject [("url", json.JString link)]), None).
Proof. reflexivity. Qed.

Lemma Marshal_AuthURLJSON (url : string) :
  json_Marshal {| AuthURLJSON_URL := url |} =
    (json.render (json.JObject [("url", json.JString url)]), None).
Proof. reflexivity. Qed.

(** A value of struct kind is never empty, so [omitempty] on the
    [Expiry] field has no effect: the member is there whenever the
    encoding succeeds. *)
Lemma Marshal_ValidateJSON (token : string) (expiry : time.Time) (text : string) :
  time.MarshalJSON expiry = inl text →
  json_Marshal {| Token := token; Expiry := expiry |} =
    (json.render (json.JObject [("access_token", json.JString token);
                                ("expiry", json.JRaw text)]), None).
Proof.
  intros Ht.
  cbv beta iota delta [json_Marshal json.Marshal ValueOf Reflect_ValidateJSON
                       Reflect_string Reflect_Time Token Expiry].
  cbn [json.encode json.isEmptyValue andb]. by rewrite Ht.
Qed.

(** When [Time.MarshalJSON] fails, [Marshal] yields no bytes. *)
Lemma Marshal_ValidateJSON_error (token : string) (expiry : time.Time) (e : goerror) :
  time.MarshalJSON expiry = inr e →
  fst (json_Marshal {| Token := token; Expiry := expiry |}) = "".
Proof.
  intros Ht.
  cbv beta iota delta [json_Marshal json.Marshal ValueOf Reflect_ValidateJSON
                       Reflect_string Reflect_Time Token Expiry].
  cbn [json.encode json.isEmptyValue andb]. by rewrite Ht.
Qed.

(** ** Cookies, continued *)

Lemma Request_Cookie_cases (r : http.Request) (name : string) :
  (∃ c, http.Request_Cookie r name = (Some c, None))
  ∨ http.Request_Cookie r name = (None, Some http.ErrNoCookie).
Proof.
  unfold http.Request_Cookie. destruct (String.eqb name ""); [by right|].
  destruct (http.findCookie name (http.Cookies r)) as [c|]; [left; by exists c | by right].
Qed.

(** [r.Cookie] only succeeds with a cookie of the request that has the
    name asked for, and that is the first of them. *)
Lemma Request_Cookie_found (r : http.Request) (name : string) (c : http.Cookie) :
  http.Request_Cookie r name = (Some c, None) →
  ∃ before after, http.Cookies r = (before ++ c :: after)%list
                  ∧ http.Name c = name
                  ∧ ∀ c', c' ∈ before → http.Name c' ≠ name.
Proof.
  unfold http.Request_Cookie. destruct (String.eqb name ""); [discriminate|].
  destruct (http.findCookie name (http.Cookies r)) as [c0|] eqn:Hf; [|discriminate].
  intros [= ->]. revert Hf. generalize (http.Cookies r) as cs.
  induction cs as [|x cs IH]; [discriminate|]. cbn [http.findCookie].
  destruct (String.eqb_spec (http.Name x) name) as [Hx|Hx].
  - intros [= ->]. exists [], cs. repeat split; [done|]. intros c' Hc'. inversion Hc'.
  - intros Hf. destruct (IH Hf) as (before & after & -> & Hn & Hb).
    exists (x :: before), after. repeat split; [done|].
    intros c' [->|Hc']%elem_of_cons; [done | by apply Hb].
Qed.

(** * The handlers *)

Section HandlerFacts.

Variable gd : StorageClient.
Variable r : http.Request.
Variable ps : httprouter.Params.

(** ** With a [token] cookie and a failing client *)

Section ClientFails.

Variable c : http.Cookie.
Hypothesis Hcookie : http.Request_Cookie r "token" = (Some c, None).

Let token := http.Value c.
Let path := httprouter.ByName ps "filepath".

Variable e : goerror.

(** [Add], [Delete] and [Read] stop after [http.Error]. *)
Lemma Add_error :
  gd_Add gd token (http.RequestBody r) path = Some e →
  responds (serve (Add gd r ps)) 400 plainText (Error e +:+ newline).
Proof.
  intros He. unfold Add. rewrite Hcookie. step. fold token path. rewrite He. step.
  eexists; split; [reflexivity|]. by writer.
Qed.

Lemma Delete_error :
  gd_Delete gd token path = Some e →
  responds (serve (Delete gd r ps)) 400 plainText (Error e +:+ newline).
Proof.
  intros He. unfold Delete. rewrite Hcookie. step. fold token path. rewrite He. step.
  eexists; split; [reflexivity|]. by writer.
Qed.

Lemma Read_error (resp : option http.Response) :
  gd_Read gd token path = (resp, Some e) →
  responds (serve (Read gd r ps)) 400 plainText (Error e +:+ newline).
Proof.
  intros He. unfold Read. rewrite Hcookie. step. fold token path. rewrite He. step.
  eexists; split; [reflexivity|]. by writer.
Qed.

(** [Browse] and [Publish] go on after [http.Error]: the JSON encoding
    of what the client returned with the error is appended to the
    body; the status and the headers already sent stay. *)
Lemma Browse_error (l : option (list string)) :
  gd_Browse gd token path = (l, Some e) →
  responds (serve (Browse gd r ps)) 400 plainText
    (Error e +:+ newline
       +:+ json.render (json.JObject [("file_list", jsonStrings l)])).
Proof.
  intros He. unfold Browse. rewrite Hcookie. step. fold token path. rewrite He. step.
  rewrite Marshal_BrowseJSON. step.
  eexists; split; [reflexivity|]. cbn [w]. writer.
  repeat split. apply append_assoc.
Qed.

Lemma Publish_error (link : string) :
  gd_Publish gd token path = (link, Some e) →
  responds (serve (Publish gd r ps)) 400 plainText
    (Error e +:+ newline
       +:+ json.render (json.JObject [("url", json.JString link)])).
Proof.
  intros He. unfold Publish. rewrite Hcookie. step. fold token path. rewrite He. step.
  rewrite Marshal_PublishJSON. step.
  eexists; split; [reflexivity|]. cbn [w]. writer.
  repeat split. apply append_assoc.
Qed.

End ClientFails.

(** [Validate] answers a failing client with a text of its own. *)
Lemma Validate_error (token : string) (expiry : time.Time) (e : goerror) :
  http.FormValue r "state" = "google" →
  gd_Validate gd (http.FormValue r "code") = (token, expiry, Some e) →
  responds (serve (Validate gd r ps)) 400 plainText ("Auth Code invalid" +:+ newline).
Proof.
  intros Hs He. unfold Validate. rewrite Hs. cbn [String.eqb Ascii.eqb Bool.eqb].
  step. rewrite He. step.
  eexists; split; [reflexivity|]. by writer.
Qed.

(** ** The streamed read *)

(** When the client returns a stream and no error, [Read] copies the
    stream's bytes to the body and closes the stream. *)
Lemma Read_stream (c : http.Cookie) (resp : http.Response) :
  http.Request_Cookie r "token" = (Some c, None) →
  gd_Read gd (http.Value c) (httprouter.ByName ps "filepath") = (Some resp, None) →
  ∃ σ, serve (Read gd r ps) = Returned tt σ
       ∧ http.status (w σ) = http.StatusOK
       ∧ http.written (w σ) = http.data (http.Body resp)
       ∧ trace σ = [Client (CallRead (http.Value c) (httprouter.ByName ps "filepath"));
                    Copied (http.Body resp); Closed (http.Body resp)].
Proof.
  intros Hc Hr. unfold Read. rewrite Hc. step. rewrite Hr. step.
  destruct (http.data (http.Body resp)) as [|a data] eqn:Hdata.
  - step. eexists; split; [reflexivity|]. by writer.
  - cbn [String.length Nat.eqb]. step. unfold http.newResponse. rewrite Write_first.
    destruct (snd _); step; (eexists; split; [reflexivity|]); cbn [w trace]; by writer.
Qed.

(** ** No handler panics *)

Lemma handlers_return (h : http.Request → httprouter.Params → M unit) :
  h ∈ [Add gd; AuthURL gd; Browse gd; Delete gd; Publish gd; Read gd; Validate gd] →
  ∃ σ, serve (h r ps) = Returned tt σ.
Proof.
  intros Hh.
  repeat (apply elem_of_cons in Hh as [->|Hh]); [..|by apply elem_of_nil in Hh].
  all: unfold Add, AuthURL, Browse, Delete, Publish, Read, Validate.
  all: try (destruct (Request_Cookie_cases r "token") as [[c ->]| ->]; step;
            [|by eexists]).
  - destruct (gd_Add _ _ _ _); step; by eexists.
  - destruct (String.eqb _ _); step; [|by eexists].
    rewrite Marshal_AuthURLJSON. step. by eexists.
  - destruct (gd_Browse _ _ _) as [l [e|]]; step;
      rewrite Marshal_BrowseJSON; step; by eexists.
  - destruct (gd_Delete _ _ _); step; by eexists.
  - destruct (gd_Publish _ _ _) as [link [e|]]; step;
      rewrite Marshal_PublishJSON; step; by eexists.
  - destruct (gd_Read _ _ _) as [[resp|] [e|]]; step; try by eexists.
    destruct (Nat.eqb _ _); step; [by eexists|].
    destruct (snd _); step; by eexists.
  - destruct (String.eqb _ _); step; [|by eexists].
    destruct (gd_Validate _ _) as [[token expiry] [e|]]; step; [by eexists|].
    destruct (json_Marshal _) as [j jerr]. step. by eexists.
Qed.

End HandlerFacts.

(** ** Claims *)



(** C2, as the code has it.  When the client returns an error, [Add],
    [Browse], [Delete], [Publish] and [Read] answer 400 in plain text and
    the body starts with the error's own message, unchanged, on a line of
    its own (after that line [Browse] and [Publish] append their JSON);
    [Validate] answers 400 in plain text with the fixed line
    "Auth Code invalid" and leaves the error's message out. *)
Theorem client_error_text
    (gd : StorageClient) (r : http.Request) (ps : httprouter.Params) (e : goerror) :
  (∀ c, http.Request_Cookie r "token" = (Some c, None) →
     let token := http.Value c in
     let path := httprouter.ByName ps "filepath" in
     (gd_Add gd token (http.RequestBody r) path = Some e →
        responds (serve (Add gd r ps)) 400 plainText (Error e +:+ newline))
     ∧ (∀ l, gd_Browse gd token path = (l, Some e) →
        ∃ json, responds (serve (Browse gd r ps)) 400 plainText
                  (Error e +:+ newline +:+ json))
     ∧ (gd_Delete gd token path = Some e →
        responds (serve (Delete gd r ps)) 400 plainText (Error e +:+ newline))
     ∧ (∀ link, gd_Publish gd token path = (link, Some e) →
        ∃ json, responds (serve (Publish gd r ps)) 400 plainText
                  (Error e +:+ newline +:+ json))
     ∧ (∀ resp, gd_Read gd token path = (resp, Some e) →
        responds (serve (Read gd r ps)) 400 plainText (Error e +:+ newline)))
  ∧ (http.FormValue r "state" = "google" →
     ∀ token expiry, gd_Validate gd (http.FormValue r "code") = (token, expiry, Some e) →
     responds (serve (Validate gd r ps)) 400 plainText ("Auth Code invalid" +:+ newline)).
Proof.
  split.
  - intros c Hc token path. repeat split.
    + by apply Add_error.
    + intros l Hl. eexists. by apply (Browse_error gd r ps c Hc e l).
    + by apply Delete_error.
    + intros link Hl. eexists. by apply (Publish_error gd r ps c Hc e link).
    + intros resp. by apply Read_error.
  - intros Hs token expiry. by apply Validate_error.
Qed.

Lemma client_error_text_witness :
  responds (serve (Add (failingClient "quota exceeded") cookieRequest fileParams))
    400 plainText ("quota exceeded" +:+ newline)
  ∧ responds (serve (Delete (failingClient "quota exceeded") cookieRequest fileParams))
    400 plainText ("quota exceeded" +:+ newline)
  ∧ responds (serve (Read (failingClient "quota exceeded") cookieRequest fileParams))
    400 plainText ("quota exceeded" +:+ newline)
  ∧ responds (serve (Validate (failingClient "quota exceeded") (callbackRequest "google") []))
    400 plainText ("Auth Code invalid" +:+ newline).
Proof.
  destruct (client_error_text (failingClient "quota exceeded") cookieRequest fileParams
              (errors_New "quota exceeded")) as [Hgated _].
  destruct (Hgated {| http.Name := "token"; http.Value := "SECRET" |} eq_refl)
    as (HA & _ & HD & _ & HR).
  destruct (client_error_text (failingClient "quota exceeded") (callbackRequest "google") []
              (errors_New "quota exceeded")) as [_ HV].
  repeat split.
  - by apply HA.
  - by apply HD.
  - by apply (HR None).
  - by apply (HV eq_refl "" time.zero).
Defined.

(** C2 as stated fails for [Validate]: the client's error message is
    "quota exceeded" and the body is "Auth Code invalid". *)
Lemma Validate_hides_client_error :
  gd_Validate (failingClient "quota exceeded") "4/abc"
    = ("", time.zero, Some (errors_New "quota exceeded"))
  ∧ ∃ σ, serve (Validate (failingClient "quota exceeded") (callbackRequest "google") [])
           = Returned tt σ
         ∧ http.status (w σ) = 400
         ∧ http.written (w σ) = "Auth Code invalid" +:+ newline
         ∧ http.written (w σ) ≠ "quota exceeded"
         ∧ http.written (w σ) ≠ "quota exceeded" +:+ newline.
Proof.
  split; [reflexivity|]. eexists. split; [reflexivity|].
  repeat split; discriminate.
Qed.

(** C3. A request to [Add], [Browse], [Delete], [Publish] or [Read]
    without a cookie named [token] gets status 401 and a body that is not
    empty, and the storage client is not called. *)
Theorem missing_cookie_unauthorized
    (gd : StorageClient) (r : http.Request) (ps : httprouter.Params)
    (h : http.Request → httprouter.Params → M unit) :
  (∀ c, c ∈ http.Cookies r → http.Name c ≠ "token") →
  h ∈ [Add gd; Browse gd; Delete gd; Publish gd; Read gd] →
  ∃ σ, serve (h r ps) = Returned tt σ
       ∧ http.status (w σ) = http.StatusUnauthorized
       ∧ http.written (w σ) ≠ ""
       ∧ clientCalls (trace σ) = [].
Proof.
  intros Hno Hh. apply Request_Cookie_missing in Hno.
  repeat (apply elem_of_cons in Hh as [->|Hh]); [..|by apply elem_of_nil in Hh].
  all: unfold Add, Browse, Delete, Publish, Read; rewrite Hno; step.
  all: eexists; split; [reflexivity|]; cbn [w trace]; writer.
  all: repeat split; apply line_not_empty.
Qed.

Lemma missing_cookie_unauthorized_witness :
  ∃ σ, serve (Browse (failingClient "quota exceeded") anonymousRequest fileParams)
         = Returned tt σ
       ∧ http.status (w σ) = 401
       ∧ http.written (w σ) ≠ ""
       ∧ clientCalls (trace σ) = [].
Proof.
  apply (missing_cookie_unauthorized (failingClient "quota exceeded")
           anonymousRequest fileParams (Browse (failingClient "quota exceeded"))).
  - intros c Hc. apply list_elem_of_singleton in Hc as ->. discriminate.
  - right. left.
Defined.

(** C4. A [Validate] request whose [state] is not "google" gets status
    400, and the storage client is not called. *)
Theorem Validate_unsupported_state
    (gd : StorageClient) (r : http.Request) (ps : httprouter.Params) :
  http.FormValue r "state" ≠ "google" →
  ∃ σ, serve (Validate gd r ps) = Returned tt σ
       ∧ http.status (w σ) = http.StatusBadRequest
       ∧ trace σ = [].
Proof.
  intros Hs. apply String.eqb_neq in Hs. unfold Validate. rewrite Hs. step.
  eexists; split; [reflexivity|]. by writer.
Qed.

Lemma Validate_unsupported_state_witness :
  ∃ σ, serve (Validate (stubClient None "" None "ya29.a0" time.zero None)
                (callbackRequest "dropbox") []) = Returned tt σ
       ∧ http.status (w σ) = 400
       ∧ trace σ = [].
Proof.
  apply (Validate_unsupported_state (stubClient None "" None "ya29.a0" time.zero None)
           (callbackRequest "dropbox") []).
  vm_compute. discriminate.
Defined.

(** C5. A [Read] request with a [token] cookie for which the client
    returns a nil stream and no error: the handler returns (it does not
    panic), the status is 200, the body is empty, and the stream is
    neither read nor closed. *)
Theorem Read_nil_stream
    (gd : StorageClient) (r : http.Request) (ps : httprouter.Params) (c : http.Cookie) :
  http.Request_Cookie r "token" = (Some c, None) →
  gd_Read gd (http.Value c) (httprouter.ByName ps "filepath") = (None, None) →
  ∃ σ, serve (Read gd r ps) = Returned tt σ
       ∧ http.status (w σ) = http.StatusOK
       ∧ http.written (w σ) = ""
       ∧ trace σ = [Client (CallRead (http.Value c) (httprouter.ByName ps "filepath"))].
Proof.
  intros Hc Hr. unfold Read. rewrite Hc. step. rewrite Hr. step.
  eexists; split; [reflexivity|]. by writer.
Qed.

Lemma Read_nil_stream_witness :
  ∃ σ, serve (Read (stubClient None "" None "" time.zero None) cookieRequest fileParams)
         = Returned tt σ
       ∧ http.status (w σ) = 200
       ∧ http.written (w σ) = ""
       ∧ trace σ = [Client (CallRead "SECRET" "docs/a.txt")].
Proof.
  apply (Read_nil_stream (stubClient None "" None "" time.zero None) cookieRequest
           fileParams {| http.Name := "token"; http.Value := "SECRET" |});
    reflexivity.
Defined.

(** C6, as the code has it.  A [Delete] request with a [token] cookie for
    which the client returns the error "not found" gets status 400 and the
    body "not found" followed by a newline. *)
Theorem Delete_not_found
    (gd : StorageClient) (r : http.Request) (ps : httprouter.Params)
    (c : http.Cookie) (e : goerror) :
  http.Request_Cookie r "token" = (Some c, None) →
  gd_Delete gd (http.Value c) (httprouter.ByName ps "filepath") = Some e →
  Error e = "not found" →
  responds (serve (Delete gd r ps)) 400 plainText ("not found" +:+ newline).
Proof.
  intros Hc Hd He. rewrite <- He. by apply (Delete_error gd r ps c Hc e).
Qed.

Lemma Delete_not_found_witness :
  responds (serve (Delete (failingClient "not found") cookieRequest fileParams))
    400 plainText ("not found" +:+ newline).
Proof.
  apply (Delete_not_found (failingClient "not found") cookieRequest fileParams
           {| http.Name := "token"; http.Value := "SECRET" |} (errors_New "not found"));
    reflexivity.
Defined.

(** C6 as stated fails: the body is not "not found" but that text with
    the newline [http.Error] ends it with. *)
Lemma Delete_not_found_body_has_newline :
  gd_Delete (failingClient "not found") "SECRET" "docs/a.txt"
    = Some (errors_New "not found")
  ∧ ∃ σ, serve (Delete (failingClient "not found") cookieRequest fileParams)
           = Returned tt σ
         ∧ http.status (w σ) = 400
         ∧ http.written (w σ) ≠ "not found".
Proof.
  split; [reflexivity|]. eexists. split; [reflexivity|]. split; [reflexivity|discriminate].
Qed.

(** C7, where the code misses it.  The client accepts the code and
    supplies no expiry (the zero [time.Time]): the body still has the
    [expiry] member, holding the zero time.  [omitempty] never drops a
    value of struct kind. *)
Theorem Validate_zero_expiry_is_serialized :
  gd_Validate (stubClient None "" None "ya29.a0" time.zero None) "4/abc"
    = ("ya29.a0", time.zero, None)
  ∧ time.IsZero time.zero = true
  ∧ json.isEmptyValue (ValueOf time.zero) = false
  ∧ responds (serve (Validate (stubClient None "" None "ya29.a0" time.zero None)
                       (callbackRequest "google") []))
      200 "application/json"
      (json.render (json.JObject [("access_token", json.JString "ya29.a0");
                                  ("expiry", json.JString "0001-01-01T00:00:00Z")])).
Proof.
  repeat (split; [reflexivity|]). eexists. split; [reflexivity|]. by vm_compute.
Qed.

(** C8, as the code has it.  A [Validate] request with [state] "google"
    whose code the client accepts, with an expiry that has an RFC 3339
    form: the response is 200, [application/json], and its body is the
    object whose [access_token] is the token the client returned, as it
    is, followed by the [expiry]. *)
Theorem Validate_success
    (gd : StorageClient) (r : http.Request) (ps : httprouter.Params)
    (token : string) (expiry : time.Time) (text : string) :
  http.FormValue r "state" = "google" →
  gd_Validate gd (http.FormValue r "code") = (token, expiry, None) →
  time.MarshalJSON expiry = inl text →
  responds (serve (Validate gd r ps)) 200 "application/json"
    (json.render (json.JObject [("access_token", json.JString token);
                                ("expiry", json.JRaw text)])).
Proof.
  intros Hs Hv Ht. unfold Validate. rewrite Hs. cbn [String.eqb Ascii.eqb Bool.eqb].
  step. rewrite Hv. step. rewrite (Marshal_ValidateJSON _ _ _ Ht). step.
  eexists; split; [reflexivity|]. cbn [w]. by writer.
Qed.

Lemma Validate_success_witness :
  responds (serve (Validate (stubClient None "" None "ya29.a0"
                               {| time.sec := 63897517845; time.nsec := 0; time.offset := 0 |}
                               None)
                     (callbackRequest "google") []))
    200 "application/json"
    (json.render (json.JObject [("access_token", json.JString "ya29.a0");
                                ("expiry", json.JString "2025-10-31T14:30:45Z")])).
Proof.
  apply (Validate_success
           (stubClient None "" None "ya29.a0"
              {| time.sec := 63897517845; time.nsec := 0; time.offset := 0 |} None)
           (callbackRequest "google") [] "ya29.a0"
           {| time.sec := 63897517845; time.nsec := 0; time.offset := 0 |}
           (String dquote ("2025-10-31T14:30:45Z" +:+ String dquote "")));
    reflexivity.
Defined.

(** C8 as stated fails: the client accepts the code and returns the
    empty token, and the body's [access_token] is the empty string. *)
Lemma Validate_empty_access_token :
  gd_Validate (stubClient None "" None "" time.zero None) "4/abc" = ("", time.zero, None)
  ∧ responds (serve (Validate (stubClient None "" None "" time.zero None)
                       (callbackRequest "google") []))
      200 "application/json"
      (json.render (json.JObject [("access_token", json.JString "");
                                  ("expiry", json.JString "0001-01-01T00:00:00Z")])).
Proof.
  split; [reflexivity|]. eexists. split; [reflexivity|]. by vm_compute.
Qed.



(** C10. [Read] always returns, and whenever its trace shows that a
    stream was copied to the response, the trace is the client call, the
    copy and then one [Close] of that stream: the stream is closed once,
    after the copy, and nothing follows. *)
Theorem Read_closes_copied_stream
    (gd : StorageClient) (r : http.Request) (ps : httprouter.Params) :
  ∃ σ, serve (Read gd r ps) = Returned tt σ
       ∧ ∀ b, Copied b ∈ trace σ →
           (∃ call, trace σ = [Client call; Copied b; Closed b])
           ∧ occurrences (Closed b) (trace σ) = 1%nat.
Proof.
  assert (Hshape : ∀ call b0 b,
            Copied b ∈ [Client call; Copied b0; Closed b0] →
            (∃ call', [Client call; Copied b0; Closed b0] = [Client call'; Copied b; Closed b])
            ∧ occurrences (Closed b) [Client call; Copied b0; Closed b0] = 1%nat).
  { intros call b0 b Hb.
    repeat (apply elem_of_cons in Hb as [Hb|Hb]); try discriminate;
      [|by apply elem_of_nil in Hb].
    injection Hb as ->. split; [by exists call|].
    unfold occurrences. cbn [List.filter].
    rewrite !bool_decide_eq_false_2 by discriminate.
    by rewrite bool_decide_eq_true_2. }
  assert (Hnone : ∀ tr : list Event, (∀ b, Copied b ∉ tr) →
            ∀ b, Copied b ∈ tr →
            (∃ call, tr = [Client call; Copied b; Closed b])
            ∧ occurrences (Closed b) tr = 1%nat).
  { intros tr Hno b Hb. by destruct (Hno b). }
  unfold Read.
  destruct (Request_Cookie_cases r "token") as [[c ->]| ->]; step;
    [|eexists; split; [reflexivity|]; apply Hnone; intros b Hb; inversion Hb].
  destruct (gd_Read _ _ _) as [[resp|] [e|]]; step.
  - eexists; split; [reflexivity|]. cbn [trace]. apply Hnone. intros b Hb.
    repeat (apply elem_of_cons in Hb as [Hb|Hb]); try discriminate.
    by apply elem_of_nil in Hb.
  - destruct (Nat.eqb _ _); step.
    + eexists; split; [reflexivity|]. cbn [trace]. apply Hshape.
    + destruct (snd _); step; (eexists; split; [reflexivity|]); cbn [trace]; apply Hshape.
  - eexists; split; [reflexivity|]. cbn [trace]. apply Hnone. intros b Hb.
    repeat (apply elem_of_cons in Hb as [Hb|Hb]); try discriminate.
    by apply elem_of_nil in Hb.
  - eexists; split; [reflexivity|]. cbn [trace]. apply Hnone. intros b Hb.
    repeat (apply elem_of_cons in Hb as [Hb|Hb]); try discriminate.
    by apply elem_of_nil in Hb.
Qed.

Lemma Read_closes_copied_stream_witness :
  ∃ σ, serve (Read streamClient cookieRequest fileParams) = Returned tt σ
       ∧ Copied helloStream ∈ trace σ
       ∧ trace σ = [Client (CallRead "SECRET" "docs/a.txt");
                    Copied helloStream; Closed helloStream]
       ∧ occurrences (Closed helloStream) (trace σ) = 1%nat.
Proof.
  destruct (Read_closes_copied_stream streamClient cookieRequest fileParams)
    as (σ & Hσ & Hclosed).
  assert (Htrace : trace σ = [Client (CallRead "SECRET" "docs/a.txt");
                              Copied helloStream; Closed helloStream]).
  { vm_compute in Hσ. injection Hσ as <-. reflexivity. }
  assert (Hcopied : Copied helloStream ∈ trace σ).
  { rewrite Htrace. right. left. }
  exists σ. repeat split; [exact Hσ | exact Hcopied | exact Htrace |].
  exact (proj2 (Hclosed helloStream Hcopied)).
Defined.

(** * Further properties of the handlers *)

(** ** Parameters and cookies *)



(** An object with one member, as text. *)
Lemma render_singleton (k : string) (x : json.Json) :
  json.render (json.JObject [(k, x)]) =
    "{" +:+ json.quote k +:+ ":" +:+ json.render x +:+ "}".
Proof.
  cbn [json.render].
  change ("" +:+ json.quote k +:+ ":" +:+ json.render x +:+ "")
    with (json.quote k +:+ ":" +:+ json.render x +:+ "").
  by rewrite append_empty_r, !append_assoc.
Qed.

(** ** The accepted request, handler by handler *)

(** X1. Upload.  An [Add] request with a [token] cookie that the client
    accepts gets status 200 and an empty body, with no [Content-Type] set
    by the handler; the client was called once, with the cookie's value,
    the request body and the [filepath] parameter. *)
Theorem Add_accepted
    (gd : StorageClient) (r : http.Request) (ps : httprouter.Params) (c : http.Cookie) :
  http.Request_Cookie r "token" = (Some c, None) →
  gd_Add gd (http.Value c) (http.RequestBody r) (httprouter.ByName ps "filepath") = None →
  responds (serve (Add gd r ps)) 200 "" ""
  ∧ ∃ σ, serve (Add gd r ps) = Returned tt σ
         ∧ trace σ = [Client (CallAdd (http.Value c) (http.RequestBody r)
                                (httprouter.ByName ps "filepath"))].
Proof.
  intros Hc Ha. unfold Add. rewrite Hc. step. rewrite Ha. step.
  split; eexists; (split; [reflexivity|]); by writer.
Qed.

Lemma Add_accepted_witness :
  responds (serve (Add listingClient cookieRequest fileParams)) 200 "" ""
  ∧ ∃ σ, serve (Add listingClient cookieRequest fileParams) = Returned tt σ
         ∧ trace σ = [Client (CallAdd "SECRET" "payload" "docs/a.txt")].
Proof.
  apply (Add_accepted listingClient cookieRequest fileParams
           {| http.Name := "token"; http.Value := "SECRET" |}); reflexivity.
Defined.

(** X2. A [Delete] request with a [token] cookie that the client accepts
    gets status 200 and an empty body. *)
Theorem Delete_accepted
    (gd : StorageClient) (r : http.Request) (ps : httprouter.Params) (c : http.Cookie) :
  http.Request_Cookie r "token" = (Some c, None) →
  gd_Delete gd (http.Value c) (httprouter.ByName ps "filepath") = None →
  responds (serve (Delete gd r ps)) 200 "" ""
  ∧ ∃ σ, serve (Delete gd r ps) = Returned tt σ
         ∧ trace σ = [Client (CallDelete (http.Value c) (httprouter.ByName ps "filepath"))].
Proof.
  intros Hc Hd. unfold Delete. rewrite Hc. step. rewrite Hd. step.
  split; eexists; (split; [reflexivity|]); by writer.
Qed.

Lemma Delete_accepted_witness :
  responds (serve (Delete listingClient cookieRequest fileParams)) 200 "" ""
  ∧ ∃ σ, serve (Delete listingClient cookieRequest fileParams) = Returned tt σ
         ∧ trace σ = [Client (CallDelete "SECRET" "docs/a.txt")].
Proof.
  apply (Delete_accepted listingClient cookieRequest fileParams
           {| http.Name := "token"; http.Value := "SECRET" |}); reflexivity.
Defined.

(** X3. A [Browse] request with a [token] cookie for which the client
    returns a list and no error gets status 200, [application/json], and
    the object whose [file_list] holds the names in the client's order.  A
    nil list is written as [null], an empty list that is not nil as an
    empty array. *)
Theorem Browse_lists
    (gd : StorageClient) (r : http.Request) (ps : httprouter.Params)
    (c : http.Cookie) (l : option (list string)) :
  http.Request_Cookie r "token" = (Some c, None) →
  gd_Browse gd (http.Value c) (httprouter.ByName ps "filepath") = (l, None) →
  responds (serve (Browse gd r ps)) 200 "application/json"
    (json.render (json.JObject [("file_list", jsonStrings l)]))
  ∧ (l = None →
     responds (serve (Browse gd r ps)) 200 "application/json"
       ("{" +:+ json.quote "file_list" +:+ ":null}"))
  ∧ (l = Some [] →
     responds (serve (Browse gd r ps)) 200 "application/json"
       ("{" +:+ json.quote "file_list" +:+ ":[]}")).
Proof.
  intros Hc Hb.
  assert (H : responds (serve (Browse gd r ps)) 200 "application/json"
                (json.render (json.JObject [("file_list", jsonStrings l)]))).
  { unfold Browse. rewrite Hc. step. rewrite Hb. step.
    rewrite Marshal_BrowseJSON. step.
    eexists; split; [reflexivity|]. cbn [w]. by writer. }
  split; [exact H|]. split; intros ->; exact H.
Qed.

Lemma Browse_lists_witness :
  responds (serve (Browse listingClient cookieRequest fileParams)) 200 "application/json"
    ("{" +:+ json.quote "file_list" +:+ ":[" +:+ json.quote "a.txt" +:+ ","
       +:+ json.quote "b<1>.txt" +:+ "]}").
Proof.
  apply (Browse_lists listingClient cookieRequest fileParams
           {| http.Name := "token"; http.Value := "SECRET" |}
           (Some ["a.txt"; "b<1>.txt"])); reflexivity.
Defined.

(** X4. A [Publish] request with a [token] cookie for which the client
    returns a link and no error gets status 200, [application/json], and
    the object whose [url] is that link. *)
Theorem Publish_links
    (gd : StorageClient) (r : http.Request) (ps : httprouter.Params)
    (c : http.Cookie) (link : string) :
  http.Request_Cookie r "token" = (Some c, None) →
  gd_Publish gd (http.Value c) (httprouter.ByName ps "filepath") = (link, None) →
  responds (serve (Publish gd r ps)) 200 "application/json"
    ("{" +:+ json.quote "url" +:+ ":" +:+ json.quote link +:+ "}").
Proof.
  intros Hc Hp. unfold Publish. rewrite Hc. step. rewrite Hp. step.
  rewrite Marshal_PublishJSON, render_singleton. step.
  eexists; split; [reflexivity|]. cbn [w]. by writer.
Qed.

Lemma Publish_links_witness :
  responds (serve (Publish listingClient cookieRequest fileParams)) 200 "application/json"
    ("{" +:+ json.quote "url" +:+ ":" +:+ json.quote "https://drive.example.com/f/1" +:+ "}").
Proof.
  apply (Publish_links listingClient cookieRequest fileParams
           {| http.Name := "token"; http.Value := "SECRET" |}); reflexivity.
Defined.

(** ** The authorization URL *)

(** X5. An [AuthURL] request whose [provider] parameter is not "google",
    or is missing, gets status 404 in plain text with the line
    "Provider not found", and the client is not called. *)
Theorem AuthURL_unknown_provider
    (gd : StorageClient) (r : http.Request) (ps : httprouter.Params) :
  httprouter.ByName ps "provider" ≠ "google" →
  responds (serve (AuthURL gd r ps)) 404 plainText ("Provider not found" +:+ newline)
  ∧ ∃ σ, serve (AuthURL gd r ps) = Returned tt σ ∧ trace σ = [].
Proof.
  intros Hp. apply String.eqb_neq in Hp. unfold AuthURL. rewrite Hp. step.
  split; eexists; (split; [reflexivity|]); by writer.
Qed.

Lemma AuthURL_unknown_provider_witness :
  responds (serve (AuthURL listingClient anonymousRequest (providerParams "dropbox")))
    404 plainText ("Provider not found" +:+ newline)
  ∧ responds (serve (AuthURL listingClient anonymousRequest []))
    404 plainText ("Provider not found" +:+ newline).
Proof.
  split.
  - apply (AuthURL_unknown_provider listingClient anonymousRequest (providerParams "dropbox")).
    discriminate.
  - apply (AuthURL_unknown_provider listingClient anonymousRequest []). discriminate.
Defined.

(** X6. An [AuthURL] request for the provider "google" gets status 200,
    [application/json], and the object whose [url] is the client's
    authorization URL; no cookie is needed, and the client's [AuthURL] is
    its only call. *)
Theorem AuthURL_google
    (gd : StorageClient) (r : http.Request) (ps : httprouter.Params) :
  httprouter.ByName ps "provider" = "google" →
  responds (serve (AuthURL gd r ps)) 200 "application/json"
    ("{" +:+ json.quote "url" +:+ ":" +:+ json.quote (gd_AuthURL gd) +:+ "}")
  ∧ ∃ σ, serve (AuthURL gd r ps) = Returned tt σ ∧ trace σ = [Client CallAuthURL].
Proof.
  intros Hp. unfold AuthURL. rewrite Hp. cbn [String.eqb Ascii.eqb Bool.eqb].
  step. rewrite Marshal_AuthURLJSON, render_singleton. step.
  split; eexists; (split; [reflexivity|]); cbn [w trace]; by writer.
Qed.

Lemma AuthURL_google_witness :
  responds (serve (AuthURL listingClient anonymousRequest (providerParams "google")))
    200 "application/json"
    ("{" +:+ json.quote "url" +:+ ":"
       +:+ json.quote "https://accounts.example.com/o/oauth2/auth" +:+ "}").
Proof.
  apply (AuthURL_google listingClient anonymousRequest (providerParams "google")).
  reflexivity.
Defined.

(** ** Reading a file *)

(** X7. A [Read] request with a [token] cookie for which the client
    returns a stream and no error gets status 200 and, as body, the bytes
    the stream yields, unchanged; an error of the stream after those bytes
    changes nothing; the stream is closed after the copy. *)
Theorem Read_streams_the_file
    (gd : StorageClient) (r : http.Request) (ps : httprouter.Params)
    (c : http.Cookie) (resp : http.Response) :
  http.Request_Cookie r "token" = (Some c, None) →
  gd_Read gd (http.Value c) (httprouter.ByName ps "filepath") = (Some resp, None) →
  ∃ σ, serve (Read gd r ps) = Returned tt σ
       ∧ http.status (w σ) = 200
       ∧ http.written (w σ) = http.data (http.Body resp)
       ∧ trace σ = [Client (CallRead (http.Value c) (httprouter.ByName ps "filepath"));
                    Copied (http.Body resp); Closed (http.Body resp)].
Proof. intros Hc Hr. exact (Read_stream gd r ps c resp Hc Hr). Qed.

Lemma Read_streams_the_file_witness :
  ∃ σ, serve (Read (stubClient None "" (Some {| http.Body :=
                      {| http.data := "partial";
                         http.readErr := Some (errors_New "unexpected EOF") |} |})
                      "" time.zero None) cookieRequest fileParams) = Returned tt σ
       ∧ http.status (w σ) = 200
       ∧ http.written (w σ) = "partial"
       ∧ trace σ = [Client (CallRead "SECRET" "docs/a.txt");
                    Copied {| http.data := "partial";
                              http.readErr := Some (errors_New "unexpected EOF") |};
                    Closed {| http.data := "partial";
                              http.readErr := Some (errors_New "unexpected EOF") |}].
Proof.
  apply (Read_streams_the_file
           (stubClient None "" (Some {| http.Body :=
              {| http.data := "partial";
                 http.readErr := Some (errors_New "unexpected EOF") |} |})
              "" time.zero None)
           cookieRequest fileParams {| http.Name := "token"; http.Value := "SECRET" |}
           {| http.Body := {| http.data := "partial";
                              http.readErr := Some (errors_New "unexpected EOF") |} |});
    reflexivity.
Defined.

(** X8. When the client's read returns an error, [Read] answers 400 and
    returns at once: a response that came with the error is neither
    copied nor closed. *)
Theorem Read_error_leaves_stream_open
    (gd : StorageClient) (r : http.Request) (ps : httprouter.Params)
    (c : http.Cookie) (resp : http.Response) (e : goerror) :
  http.Request_Cookie r "token" = (Some c, None) →
  gd_Read gd (http.Value c) (httprouter.ByName ps "filepath") = (Some resp, Some e) →
  ∃ σ, serve (Read gd r ps) = Returned tt σ
       ∧ http.status (w σ) = 400
       ∧ http.written (w σ) = Error e +:+ newline
       ∧ trace σ = [Client (CallRead (http.Value c) (httprouter.ByName ps "filepath"))]
       ∧ occurrences (Closed (http.Body resp)) (trace σ) = 0%nat.
Proof.
  intros Hc Hr. unfold Read. rewrite Hc. step. rewrite Hr. step.
  eexists; split; [reflexivity|]. cbn [w trace]. writer.
  by repeat split.
Qed.

Lemma Read_error_leaves_stream_open_witness :
  ∃ σ, serve (Read (stubClient None "" (Some {| http.Body := helloStream |}) "" time.zero
                      (Some (errors_New "stopped after 10 redirects")))
                cookieRequest fileParams) = Returned tt σ
       ∧ http.status (w σ) = 400
       ∧ http.written (w σ) = "stopped after 10 redirects" +:+ newline
       ∧ trace σ = [Client (CallRead "SECRET" "docs/a.txt")]
       ∧ occurrences (Closed helloStream) (trace σ) = 0%nat.
Proof.
  apply (Read_error_leaves_stream_open
           (stubClient None "" (Some {| http.Body := helloStream |}) "" time.zero
              (Some (errors_New "stopped after 10 redirects")))
           cookieRequest fileParams {| http.Name := "token"; http.Value := "SECRET" |}
           {| http.Body := helloStream |} (errors_New "stopped after 10 redirects"));
    reflexivity.
Defined.

(** ** The code exchange *)

(** X9. [Validate] ignores the error of [json.Marshal].  When the client
    accepts the code with an expiry that has no RFC 3339 form (a year
    outside 0..9999), the response is status 200, [application/json], with
    an empty body: the token is lost. *)
Theorem Validate_unencodable_expiry
    (gd : StorageClient) (r : http.Request) (ps : httprouter.Params)
    (token : string) (expiry : time.Time) (e : goerror) :
  http.FormValue r "state" = "google" →
  gd_Validate gd (http.FormValue r "code") = (token, expiry, None) →
  time.MarshalJSON expiry = inr e →
  responds (serve (Validate gd r ps)) 200 "application/json" "".
Proof.
  intros Hs Hv Ht. unfold Validate. rewrite Hs. cbn [String.eqb Ascii.eqb Bool.eqb].
  step. rewrite Hv. step.
  pose proof (Marshal_ValidateJSON_error token expiry e Ht) as Hj.
  destruct (json_Marshal _) as [j jerr]. cbn [fst] in Hj. subst j. step.
  eexists; split; [reflexivity|]. cbn [w]. by writer.
Qed.

Lemma Validate_unencodable_expiry_witness :
  responds (serve (Validate (stubClient None "" None "ya29.a0" year10000 None)
                     (callbackRequest "google") []))
    200 "application/json" "".
Proof.
  apply (Validate_unencodable_expiry
           (stubClient None "" None "ya29.a0" year10000 None)
           (callbackRequest "google") [] "ya29.a0" year10000
           (errors_New "Time.MarshalJSON: year outside of range [0,9999]"));
    reflexivity.
Defined.



(** ** What holds of every handler *)

(** The shape of every served request: the handler returns; either the
    status is 200 and the [Content-Type] sent is [application/json] or
    none, or the status is 400, 401 or 404 and the headers sent are those
    of [http.Error]; the client is called at most once, and not at all
    under 401 and 404. *)
Lemma handler_outcome
    (gd : StorageClient) (r : http.Request) (ps : httprouter.Params)
    (h : http.Request → httprouter.Params → M unit) :
  h ∈ handlers gd →
  ∃ σ, serve (h r ps) = Returned tt σ
       ∧ ((http.status (w σ) = 200
           ∧ (http.sentHeader (w σ) = ∅
              ∨ http.sentHeader (w σ) = http.Header_Set "Content-Type" "application/json" ∅))
          ∨ ((http.status (w σ) = 400 ∨ http.status (w σ) = 401 ∨ http.status (w σ) = 404)
             ∧ http.sentHeader (w σ) = errorHeader))
       ∧ (List.length (clientCalls (trace σ)) ≤ 1)%nat
       ∧ (http.status (w σ) = 401 ∨ http.status (w σ) = 404 → clientCalls (trace σ) = []).
Proof.
  intros Hh. unfold handlers in Hh.
  repeat (apply elem_of_cons in Hh as [->|Hh]); [..|by apply elem_of_nil in Hh].
  all: unfold Add, AuthURL, Browse, Delete, Publish, Read, Validate.
  all: try (destruct (Request_Cookie_cases r "token") as [[c ->]| ->]; step).
  all: repeat first
         [ progress step
         | rewrite Marshal_AuthURLJSON | rewrite Marshal_BrowseJSON
         | rewrite Marshal_PublishJSON
         | match goal with
           | |- context [gd_Add ?g ?a ?b ?c] => destruct (gd_Add g a b c) as [?|]
           | |- context [gd_Delete ?g ?a ?b] => destruct (gd_Delete g a b) as [?|]
           | |- context [gd_Browse ?g ?a ?b] => destruct (gd_Browse g a b) as [? [?|]]
           | |- context [gd_Publish ?g ?a ?b] => destruct (gd_Publish g a b) as [? [?|]]
           | |- context [gd_Read ?g ?a ?b] => destruct (gd_Read g a b) as [[?|] [?|]]
           | |- context [gd_Validate ?g ?a] => destruct (gd_Validate g a) as [[? ?] [?|]]
           | |- context [json_Marshal ?v] => destruct (json_Marshal v) as [? ?]
           | |- context [String.eqb ?a ?b] => destruct (String.eqb a b)
           | |- context [Nat.eqb ?a ?b] => destruct (Nat.eqb a b)
           | |- context [snd (http.Write ?p ?x)] => destruct (snd (http.Write p x))
           end ].
  all: eexists; (split; [reflexivity|]); cbn [w trace clientCalls List.length]; writer.
  all: split; [first [ left; split; [reflexivity|]; first [by left | by right]
                     | right; split; [|reflexivity]; auto ]|].
  all: split; [lia|]. 
  all: intros [H|H]; first [reflexivity | discriminate H].
Qed.

(** X11. No handler panics, and the status of every response is 200,
    400, 401 or 404. *)
Theorem handlers_return_known_status
    (gd : StorageClient) (r : http.Request) (ps : httprouter.Params)
    (h : http.Request → httprouter.Params → M unit) :
  h ∈ handlers gd →
  ∃ σ, serve (h r ps) = Returned tt σ
       ∧ http.status (w σ) ∈ [200; 400; 401; 404].
Proof.
  intros Hh. destruct (handler_outcome gd r ps h Hh) as (σ & Hσ & Hshape & _).
  exists σ. split; [exact Hσ|].
  destruct Hshape as [[-> _]|[[->|[->| ->]] _]];
    [left | right; left | do 2 right; left | do 3 right; left].
Qed.

Lemma handlers_return_known_status_witness :
  ∃ σ, serve (Read streamClient anonymousRequest fileParams) = Returned tt σ
       ∧ http.status (w σ) ∈ [200; 400; 401; 404].
Proof.
  apply (handlers_return_known_status streamClient anonymousRequest fileParams
           (Read streamClient)).
  do 5 right. left.
Defined.

(** X12. The [Content-Type] goes with the status.  Every response of a
    handler with a status other than 200 was sent as
    [text/plain; charset=utf-8] with [X-Content-Type-Options: nosniff],
    also when the handler set [application/json] afterwards; every
    response with status 200 was sent as [application/json] or with no
    [Content-Type] of the handler's. *)
Theorem content_type_follows_status
    (gd : StorageClient) (r : http.Request) (ps : httprouter.Params)
    (h : http.Request → httprouter.Params → M unit) :
  h ∈ handlers gd →
  ∃ σ, serve (h r ps) = Returned tt σ
       ∧ (http.status (w σ) ≠ 200 →
          http.Header_Get "Content-Type" (http.sentHeader (w σ)) = plainText
          ∧ http.Header_Get "X-Content-Type-Options" (http.sentHeader (w σ)) = "nosniff")
       ∧ (http.status (w σ) = 200 →
          http.Header_Get "Content-Type" (http.sentHeader (w σ)) = "application/json"
          ∨ http.sentHeader (w σ) !! "Content-Type" = None).
Proof.
  intros Hh. destruct (handler_outcome gd r ps h Hh) as (σ & Hσ & Hshape & _).
  exists σ. split; [exact Hσ|].
  destruct Hshape as [[Hs [-> | ->]]|[Hs ->]].
  - split; [by intros []|]. intros _. by right.
  - split; [by intros []|]. intros _. by left.
  - split; [by intros _|]. intros H. rewrite H in Hs.
    by destruct Hs as [Hs|[Hs|Hs]].
Qed.

Lemma content_type_follows_status_witness :
  ∃ σ, serve (Publish (failingClient "quota exceeded") cookieRequest fileParams)
         = Returned tt σ
       ∧ http.status (w σ) = 400
       ∧ http.Header_Get "Content-Type" (http.header (w σ)) = "application/json"
       ∧ http.Header_Get "Content-Type" (http.sentHeader (w σ)) = plainText
       ∧ http.Header_Get "X-Content-Type-Options" (http.sentHeader (w σ)) = "nosniff".
Proof.
  destruct (content_type_follows_status (failingClient "quota exceeded") cookieRequest
              fileParams (Publish (failingClient "quota exceeded")))
    as (σ & Hσ & Herr & _).
  { do 4 right. left. }
  assert (Hw : http.status (w σ) = 400
               ∧ http.Header_Get "Content-Type" (http.header (w σ)) = "application/json").
  { vm_compute in Hσ. injection Hσ as <-. split; reflexivity. }
  destruct Hw as [Hs Hh]. exists σ. split; [exact Hσ|]. split; [exact Hs|].
  split; [exact Hh|]. apply Herr. rewrite Hs. discriminate.
Defined.

(** X13. A handler calls the storage client at most once for a request,
    and not at all when it answers 401 or 404. *)
Theorem client_called_at_most_once
    (gd : StorageClient) (r : http.Request) (ps : httprouter.Params)
    (h : http.Request → httprouter.Params → M unit) :
  h ∈ handlers gd →
  ∃ σ, serve (h r ps) = Returned tt σ
       ∧ (List.length (clientCalls (trace σ)) ≤ 1)%nat
       ∧ (http.status (w σ) = 401 ∨ http.status (w σ) = 404 → clientCalls (trace σ) = []).
Proof.
  intros Hh. destruct (handler_outcome gd r ps h Hh) as (σ & Hσ & _ & Hlen & Hnone).
  by exists σ.
Qed.

Lemma client_called_at_most_once_witness :
  ∃ σ, serve (Browse (failingClient "quota exceeded") cookieRequest fileParams)
         = Returned tt σ
       ∧ (List.length (clientCalls (trace σ)) ≤ 1)%nat
       ∧ (http.status (w σ) = 401 ∨ http.status (w σ) = 404 → clientCalls (trace σ) = []).
Proof.
  apply (client_called_at_most_once (failingClient "quota exceeded") cookieRequest
           fileParams (Browse (failingClient "quota exceeded"))).
  do 2 right. left.
Defined.

(** ** What the client is given *)

(** The one call of a handler that found its cookie. *)
Lemma gated_call
    (gd : StorageClient) (r : http.Request) (ps : httprouter.Params)
    (c : http.Cookie) (h : http.Request → httprouter.Params → M unit) :
  http.Request_Cookie r "token" = (Some c, None) →
  h ∈ cookieHandlers gd →
  ∃ σ call, serve (h r ps) = Returned tt σ
            ∧ clientCalls (trace σ) = [call]
            ∧ credential call = Some (http.Value c)
            ∧ callPath call = Some (httprouter.ByName ps "filepath").
Proof.
  intros Hc Hh. unfold cookieHandlers in Hh.
  repeat (apply elem_of_cons in Hh as [->|Hh]); [..|by apply elem_of_nil in Hh].
  all: unfold Add, Browse, Delete, Publish, Read; rewrite Hc; step.
  - destruct (gd_Add _ _ _ _) as [e|]; step; by eexists _, _.
  - destruct (gd_Browse _ _ _) as [l [e|]]; step;
      rewrite Marshal_BrowseJSON; step; by eexists _, _.
  - destruct (gd_Delete _ _ _) as [e|]; step; by eexists _, _.
  - destruct (gd_Publish _ _ _) as [link [e|]]; step;
      rewrite Marshal_PublishJSON; step; by eexists _, _.
  - destruct (gd_Read _ _ _) as [[resp|] [e|]]; step; try by eexists _, _.
    destruct (Nat.eqb _ _); step; [by eexists _, _|].
    destruct (snd _); step; by eexists _, _.
Qed.





(** ** The cookie gate *)

Lemma findCookie_None_inv (name : string) (cs : list http.Cookie) :
  http.findCookie name cs = None → ∀ c, c ∈ cs → http.Name c ≠ name.
Proof.
  induction cs as [|x cs IH]; intros Hf c Hc; [by apply elem_of_nil in Hc|].
  cbn [http.findCookie] in Hf.
  destruct (String.eqb_spec (http.Name x) name) as [_|Hx]; [discriminate|].
  apply elem_of_cons in Hc as [->|Hc]; [exact Hx | by apply IH].
Qed.

(** X16. The cookie's presence is the whole gate.  A cookie-gated handler
    answers 401 exactly when the request has no cookie named [token]; with
    such a cookie, whatever its value (the empty string too) and whatever
    the client answers, the status is 200 or 400. *)
Theorem unauthorized_iff_no_cookie
    (gd : StorageClient) (r : http.Request) (ps : httprouter.Params)
    (h : http.Request → httprouter.Params → M unit) :
  h ∈ cookieHandlers gd →
  ∃ σ, serve (h r ps) = Returned tt σ
       ∧ (http.status (w σ) = 401 ↔ ∀ c, c ∈ http.Cookies r → http.Name c ≠ "token")
       ∧ (http.status (w σ) ≠ 401 → http.status (w σ) = 200 ∨ http.status (w σ) = 400).
Proof.
  intros Hh.
  assert (Hin : h ∈ handlers gd).
  { unfold cookieHandlers in Hh. unfold handlers.
    repeat (apply elem_of_cons in Hh as [->|Hh]); [..|by apply elem_of_nil in Hh];
      repeat first [by left | right]. }
  destruct (handler_outcome gd r ps h Hin) as (σ & Hσ & Hshape & _ & Hnone).
  exists σ. split; [exact Hσ|].
  destruct (Request_Cookie_cases r "token") as [[c Hc]|Hc].
  - destruct (gated_call gd r ps c h Hc Hh) as (σ' & call & Hσ' & Hcalls & _).
    rewrite Hσ in Hσ'. injection Hσ' as <-.
    assert (Hs : http.status (w σ) ≠ 401).
    { intros H. rewrite Hnone in Hcalls by (by left). discriminate. }
    assert (H404 : http.status (w σ) ≠ 404).
    { intros H. rewrite Hnone in Hcalls by (by right). discriminate. }
    split.
    + split; [by intros H|]. intros Hno.
      destruct (Request_Cookie_found r "token" c Hc) as (before & after & Hcs & Hn & _).
      exfalso. apply (Hno c); [|exact Hn]. rewrite Hcs. apply elem_of_app. right. left.
    + intros _. destruct Hshape as [[H200 _]|[[H400|[H401|H4]] _]];
        [by left | by right | done | done].
  - assert (Hno : ∀ c, c ∈ http.Cookies r → http.Name c ≠ "token").
    { unfold http.Request_Cookie in Hc. cbn [String.eqb] in Hc.
      destruct (http.findCookie "token" (http.Cookies r)) eqn:Hf; [discriminate|].
      by apply findCookie_None_inv. }
    assert (Hs : http.status (w σ) = 401).
    { revert Hσ. unfold cookieHandlers in Hh.
      repeat (apply elem_of_cons in Hh as [->|Hh]); [..|by apply elem_of_nil in Hh].
      all: unfold Add, Browse, Delete, Publish, Read; rewrite Hc; step.
      all: intros [= <-]; cbn [w]; by writer. }
    split; [by split|]. intros H. by destruct H.
Qed.

Lemma unauthorized_iff_no_cookie_witness :
  ∃ σ, serve (Add (failingClient "quota exceeded")
                {| http.Cookies := [ {| http.Name := "token"; http.Value := "" |} ];
                   http.Form := ∅; http.RequestBody := "" |} fileParams) = Returned tt σ
       ∧ http.status (w σ) = 400
       ∧ clientCalls (trace σ) = [CallAdd "" "" "docs/a.txt"].
Proof.
  destruct (unauthorized_iff_no_cookie (failingClient "quota exceeded")
              {| http.Cookies := [ {| http.Name := "token"; http.Value := "" |} ];
                 http.Form := ∅; http.RequestBody := "" |} fileParams
              (Add (failingClient "quota exceeded"))) as (σ & Hσ & _ & _).
  { left. }
  exists σ. split; [exact Hσ|].
  vm_compute in Hσ. injection Hσ as <-. split; reflexivity.
Defined.

(** X17. Without a [token] cookie the answer is a 401 in plain text whose
    body is one line: "User not authenticated" from [Add], [Delete],
    [Publish] and [Read], and "authenticated" from [Browse]. *)
Theorem unauthorized_body
    (gd : StorageClient) (r : http.Request) (ps : httprouter.Params) :
  (∀ c, c ∈ http.Cookies r → http.Name c ≠ "token") →
  responds (serve (Add gd r ps)) 401 plainText ("User not authenticated" +:+ newline)
  ∧ responds (serve (Browse gd r ps)) 401 plainText ("authenticated" +:+ newline)
  ∧ responds (serve (Delete gd r ps)) 401 plainText ("User not authenticated" +:+ newline)
  ∧ responds (serve (Publish gd r ps)) 401 plainText ("User not authenticated" +:+ newline)
  ∧ responds (serve (Read gd r ps)) 401 plainText ("User not authenticated" +:+ newline).
Proof.
  intros Hno. apply Request_Cookie_missing in Hno.
  unfold Add, Browse, Delete, Publish, Read. rewrite Hno. step.
  repeat split; eexists; (split; [reflexivity|]); by writer.
Qed.

Lemma unauthorized_body_witness :
  responds (serve (Browse listingClient anonymousRequest fileParams))
    401 plainText ("authenticated" +:+ newline)
  ∧ responds (serve (Read listingClient anonymousRequest fileParams))
    401 plainText ("User not authenticated" +:+ newline).
Proof.
  destruct (unauthorized_body listingClient anonymousRequest fileParams)
    as (_ & HB & _ & _ & HR).
  { intros c Hc. apply list_elem_of_singleton in Hc as ->. discriminate. }
  split; [exact HB | exact HR].
Defined.
